(** * User Authentication API (main.py): store, handlers and their properties

    The service keeps two module-level globals, [fake_users_db] (a list of
    dicts) and [user_id_counter], and exposes six routes over them.  Each
    handler is embedded as a function from the store to a new store and an
    outcome; the routing layer of FastAPI (body validation against
    [UserCreate], status code of the decorator, serialisation through
    [response_model]) is the function [app]. *)

From Stdlib Require Import ZArith Ascii String Sorted.
From stdpp Require Import base option list sorting strings.

Set Warnings "-register-all".
Local Open Scope Z_scope.

(** ** Data model *)

(** [class User(BaseModel)], which is also the shape of every dict that the
    handlers build: keys id, username, email, full_name. *)
Module User.
Record t := mk { id : Z; username : string; email : string;
                 full_name : option string }.

#[global] Instance eq_dec : EqDecision t.
Proof. solve_decision. Defined.
End User.

(** [class UserCreate(BaseModel)]: a request body that passed validation. *)
Module UserCreate.
Record t := mk { username : string; email : string; password : string;
                 full_name : option string }.
End UserCreate.

(** A JSON request body before validation, for the four keys of
    [UserCreate]: a key is either not sent, written [None], or carries a
    string.  Bodies with other keys, or with a value that is not a string
    under one of these keys, are not described. *)
Record Body := mkBody {
  body_username : option string;
  body_email : option string;
  body_password : option string;
  body_full_name : option string }.

(** The two globals of the module. *)
Record Store := mkStore {
  fake_users_db : list User.t;
  user_id_counter : Z }.

(** State of the process right after import: [fake_users_db = []],
    [user_id_counter = 1]. *)
Definition startup : Store := mkStore [] 1.

(** What a handler body does: return a value, or raise [HTTPException]. *)
Inductive outcome (A : Type) :=
| Return (a : A)
| HTTPException (status_code : Z) (detail : string).
Arguments Return {A} a.
Arguments HTTPException {A} status_code detail.

Definition detail_username_exists : string := "이미 존재하는 사용자명입니다".
Definition detail_email_exists : string := "이미 존재하는 이메일입니다".
Definition detail_not_found : string := "사용자를 찾을 수 없습니다".
Definition message_deleted : string := "사용자가 성공적으로 삭제되었습니다".

(** ** Handlers *)

(** [GET /users]: returns the list itself. *)
Definition get_users (st : Store) : Store * outcome (list User.t) :=
  (st, Return (fake_users_db st)).

(** [GET /users/{user_id}]: first dict whose id equals [user_id]. *)
Definition get_user (user_id : Z) (st : Store) : Store * outcome User.t :=
  match list_find (λ user, User.id user = user_id) (fake_users_db st) with
  | Some (_, user) => (st, Return user)
  | None => (st, HTTPException 404 detail_not_found)
  end.

(** The duplicate check of [create_user]: one pass over the list, and for
    each stored dict the username test comes before the email test.  The
    result is the exception raised, if any. *)
Fixpoint duplicate_check (user : UserCreate.t) (db : list User.t)
  : option (outcome User.t) :=
  match db with
  | [] => None
  | existing_user :: rest =>
      if decide (User.username existing_user = UserCreate.username user)
      then Some (HTTPException 400 detail_username_exists)
      else if decide (User.email existing_user = UserCreate.email user)
      then Some (HTTPException 400 detail_email_exists)
      else duplicate_check user rest
  end.

(** [POST /users]. *)
Definition create_user (user : UserCreate.t) (st : Store)
  : Store * outcome User.t :=
  match duplicate_check user (fake_users_db st) with
  | Some exc => (st, exc)
  | None =>
      let new_user :=
        User.mk (user_id_counter st) (UserCreate.username user)
                (UserCreate.email user) (UserCreate.full_name user) in
      (mkStore (fake_users_db st ++ [new_user]) (user_id_counter st + 1),
       Return new_user)
  end.

(** [PUT /users/{user_id}]: the [enumerate] loop stops at the first index
    whose dict has the id, and that slot is overwritten. *)
Definition update_user (user_id : Z) (user : UserCreate.t) (st : Store)
  : Store * outcome User.t :=
  match list_find (λ existing_user, User.id existing_user = user_id)
                  (fake_users_db st) with
  | Some (idx, _) =>
      let updated_user :=
        User.mk user_id (UserCreate.username user) (UserCreate.email user)
                (UserCreate.full_name user) in
      (mkStore (<[idx := updated_user]> (fake_users_db st))
               (user_id_counter st),
       Return updated_user)
  | None => (st, HTTPException 404 detail_not_found)
  end.

(** [DELETE /users/{user_id}]: [fake_users_db.pop(idx)] at the first index
    whose dict has the id.  The returned value is the text of the
    [message] key. *)
Definition delete_user (user_id : Z) (st : Store) : Store * outcome string :=
  match list_find (λ user, User.id user = user_id) (fake_users_db st) with
  | Some (idx, _) =>
      (mkStore (delete idx (fake_users_db st)) (user_id_counter st),
       Return message_deleted)
  | None => (st, HTTPException 404 detail_not_found)
  end.

(** ** Routing layer *)

(** JSON documents, as sent on the wire. *)
Inductive json :=
| JNull
| JInt (z : Z)
| JStr (s : string)
| JArr (items : list json)
| JObj (members : list (string * json)).


Definition json_optional (o : option string) : json :=
  match o with Some s => JStr s | None => JNull end.

(** Serialisation through [response_model=User]: the four fields of
    [User], in declaration order. *)
Definition User_dump (u : User.t) : json :=
  JObj [("id", JInt (User.id u));
        ("username", JStr (User.username u));
        ("email", JStr (User.email u));
        ("full_name", json_optional (User.full_name u))].

(** The dict returned by [root]. *)
Definition root : json :=
  JObj [("status", JStr "healthy");
        ("message", JStr "User Authentication API is running");
        ("version", JStr "1.0.1")].

(** One member of a JSON object for a key that was sent. *)
Definition member (key : string) (o : option string) : list (string * json) :=
  match o with Some s => [(key, JStr s)] | None => [] end.

(** The request body as it was sent.  The members are listed in the order
    of the declaration; a JSON object is not ordered. *)
Definition Body_dump (body : Body) : json :=
  JObj (member "username" (body_username body) ++
        member "email" (body_email body) ++
        member "password" (body_password body) ++
        member "full_name" (body_full_name body)).

(** Entry of a 422 answer for a required field that was not sent: the
    framework quotes as [input] the whole body it received. *)
Definition missing_error (body : Body) (field : string) : json :=
  JObj [("type", JStr "missing");
        ("loc", JArr [JStr "body"; JStr field]);
        ("msg", JStr "Field required");
        ("input", Body_dump body)].

Record Response := mkResponse { status_code : Z; content : json }.

(** Turns the outcome of a handler into a response: the decorator's status
    code and serialiser on return, the exception's status code and
    [{"detail": ...}] on [HTTPException]. *)
Definition respond {A} (ok : Z) (dump : A → json) (o : outcome A) : Response :=
  match o with
  | Return a => mkResponse ok (dump a)
  | HTTPException code detail => mkResponse code (JObj [("detail", JStr detail)])
  end.

(** The requests the six routes are called with.  A path parameter is
    declared [user_id: int]; the requests described are those whose path
    segment is an integer. *)
Inductive Request :=
| GET_root
| GET_users
| GET_user (user_id : Z)
| POST_users (body : Body)
| PUT_user (user_id : Z) (body : Body)
| DELETE_user (user_id : Z).

(** ** A concrete e-mail check *)

(** Whether the character [c] occurs in [s]. *)
Fixpoint has_char (c : ascii) (s : string) : bool :=
  match s with
  | EmptyString => false
  | String a rest => if Ascii.eqb a c then true else has_char c rest
  end.

(** Splits [s] around the first occurrence of [c]. *)
Fixpoint split_at (c : ascii) (s : string) : option (string * string) :=
  match s with
  | EmptyString => None
  | String a rest =>
      if Ascii.eqb a c then Some (EmptyString, rest)
      else match split_at c rest with
           | Some (l, r) => Some (String a l, r)
           | None => None
           end
  end.

(** Space, tab, line feed or carriage return somewhere in [s]. *)
Definition has_whitespace (s : string) : bool :=
  has_char " "%char s || has_char "009"%char s ||
  has_char "010"%char s || has_char "013"%char s.

(** Modelled from the spec: the e-mail syntax check of pydantic's [EmailStr]
    (a library, not part of this repository), as section 4.2 words it: a
    local part, ["@"], and a domain that contains a ["."], with no white
    space.  The address is kept as written. *)
Definition email_shape (s : string) : option string :=
  match split_at "@"%char s with
  | Some (local_part, domain) =>
      if negb (String.eqb local_part "") && has_char "."%char domain
         && negb (has_char "@"%char domain) && negb (has_whitespace s)
      then Some s else None
  | None => None
  end.

(** Modelled from the spec: the reason quoted when [email_shape] turns a
    string down.  The wording belongs to the validation library and the
    spec gives none; the rule of section 4.2 that is broken stands for it. *)
Definition email_shape_reason (s : string) : string :=
  if has_whitespace s then "no embedded whitespace"
  else if has_char "@"%char s then "domain containing at least one ."
  else "local-part @ domain".

(** ** Vocabulary of the properties *)

(** No two stored records share a username, and no two share an email. *)
Definition unique_fields (db : list User.t) : Prop :=
  NoDup (User.username <$> db) ∧ NoDup (User.email <$> db).

(** Ids in the list are pairwise distinct and all below the counter. *)
Definition store_ok (st : Store) : Prop :=
  NoDup (User.id <$> fake_users_db st) ∧
  Forall (λ u, User.id u < user_id_counter st) (fake_users_db st).

(** Client and validation errors: status 400 and above. *)
Definition is_error (r : Response) : Prop := 400 ≤ status_code r.

(** The id echoed by a 201 response, the status that only [POST /users]
    answers with. *)
Definition assigned_id (r : Response) : option Z :=
  if decide (status_code r = 201) then
    match content r with
    | JObj ((k, JInt z) :: _) => if decide (k = "id") then Some z else None
    | _ => None
    end
  else None.

Definition created_ids (rs : list Response) : list Z := omap assigned_id rs.

(** Some record other than the one with id [user_id] already has the
    username or the email of [user]. *)
Definition collides (user_id : Z) (user : UserCreate.t) (db : list User.t)
  : bool :=
  existsb (λ u, bool_decide (User.id u ≠ user_id) &&
                (bool_decide (User.username u = UserCreate.username user) ||
                 bool_decide (User.email u = UserCreate.email user))) db.

(** The three routes whose handlers only read the globals. *)
Definition is_read (req : Request) : bool :=
  match req with
  | GET_root | GET_users | GET_user _ => true
  | _ => false
  end.

(** ** Sample requests *)

Definition alice_body : Body :=
  mkBody (Some "alice") (Some "alice@example.com") (Some "p") (Some "Alice A").

Definition bob_body : Body :=
  mkBody (Some "bob") (Some "bob@example.com") (Some "p") None.

Definition alice (user_id : Z) : User.t :=
  User.mk user_id "alice" "alice@example.com" (Some "Alice A").

Definition bob (user_id : Z) : User.t :=
  User.mk user_id "bob" "bob@example.com" None.

(** A payload with the username of alice and the email of bob. *)
Definition alice_at_bob : UserCreate.t :=
  UserCreate.mk "alice" "bob@example.com" "p" None.

(** ** The application *)

Section App.
(** Validator of pydantic's [EmailStr]: [None] when the string is not an
    e-mail address, otherwise the address as stored in the model. *)
Variable EmailStr : string → option string.

(** The reason the same validator words for a string it turns down; the
    422 answer quotes it. *)
Variable EmailStr_reason : string → string.

(** Fields of [UserCreate] that [body] fails on, in declaration order:
    username, email and password are required; full_name defaults to
    [None]. *)
Definition UserCreate_errors (body : Body) : list string :=
  (if body_username body is Some _ then [] else ["username"]) ++
  (if body_email body ≫= EmailStr is Some _ then [] else ["email"]) ++
  (if body_password body is Some _ then [] else ["password"]).

(** Validation of a request body against [UserCreate]. *)
Definition UserCreate_validate (body : Body) : list string + UserCreate.t :=
  match body_username body, body_email body ≫= EmailStr, body_password body with
  | Some username, Some email, Some password =>
      inr (UserCreate.mk username email password (body_full_name body))
  | _, _, _ => inl (UserCreate_errors body)
  end.

(** Entry of a 422 answer for an email that was sent and turned down: the
    [input] quoted is the string itself. *)
Definition email_error (address : string) : json :=
  JObj [("type", JStr "value_error");
        ("loc", JArr [JStr "body"; JStr "email"]);
        ("msg", JStr (String.append "value is not a valid email address: "
                                    (EmailStr_reason address)));
        ("input", JStr address);
        ("ctx", JObj [("reason", JStr (EmailStr_reason address))])].

(** Entry for an offending field of [body]. *)
Definition error_entry (body : Body) (field : string) : json :=
  match body_email body with
  | Some address =>
      if decide (field = "email") then email_error address
      else missing_error body field
  | None => missing_error body field
  end.

(** Body of a failed request validation: one entry per offending field,
    in the order of [fields]. *)
Definition validation_error (body : Body) (fields : list string) : json :=
  JObj [("detail", JArr (map (error_entry body) fields))].

(** A handler that takes a [UserCreate] runs only once the body has been
    validated; otherwise the framework answers 422 by itself. *)
Definition with_body (body : Body) (ok : Z)
    (handler : UserCreate.t → Store → Store * outcome User.t) (st : Store)
  : Store * Response :=
  match UserCreate_validate body with
  | inl fields => (st, mkResponse 422 (validation_error body fields))
  | inr user => let '(st', o) := handler user st in (st', respond ok User_dump o)
  end.

(** One request served by the application. *)
Definition app (st : Store) (req : Request) : Store * Response :=
  match req with
  | GET_root => (st, mkResponse 200 root)
  | GET_users =>
      let '(st', o) := get_users st in
      (st', respond 200 (λ l, JArr (map User_dump l)) o)
  | GET_user user_id =>
      let '(st', o) := get_user user_id st in (st', respond 200 User_dump o)
  | POST_users body => with_body body 201 create_user st
  | PUT_user user_id body => with_body body 200 (update_user user_id) st
  | DELETE_user user_id =>
      let '(st', o) := delete_user user_id st in
      (st', respond 200 (λ m, JObj [("message", JStr m)]) o)
  end.

(** Requests served one after the other; the responses come back in
    request order. *)
Fixpoint serve (st : Store) (reqs : list Request) : Store * list Response :=
  match reqs with
  | [] => (st, [])
  | req :: rest =>
      let '(st1, r) := app st req in
      let '(st2, rs) := serve st1 rest in
      (st2, r :: rs)
  end.

(** Along the run of [reqs] from [st], no update that goes through
    collides with another record of the store it is applied to. *)
Fixpoint updates_apart (st : Store) (reqs : list Request) : bool :=
  match reqs with
  | [] => true
  | req :: rest =>
      match req with
      | PUT_user user_id body =>
          match UserCreate_validate body with
          | inr user =>
              match (update_user user_id user st).2 with
              | Return _ => negb (collides user_id user (fake_users_db st))
              | HTTPException _ _ => true
              end
          | inl _ => true
          end
      | _ => true
      end && updates_apart (app st req).1 rest
  end.

(** ** Lemmas on the handlers *)

Lemma duplicate_check_None user db :
  duplicate_check user db = None ↔
  Forall (λ u, User.username u ≠ UserCreate.username user ∧
               User.email u ≠ UserCreate.email user) db.
Proof.
  induction db as [|e db IH]; simpl; [by split; [constructor|]|].
  rewrite Forall_cons, <- IH. repeat case_decide; split; try done; tauto.
Qed.

Lemma duplicate_check_Some user db exc :
  duplicate_check user db = Some exc →
  exc = HTTPException 400 detail_username_exists ∨
  exc = HTTPException 400 detail_email_exists.
Proof.
  induction db as [|e db IH]; simpl; [done|].
  repeat case_decide; naive_solver.
Qed.

Lemma create_user_Return user st st' new_user :
  create_user user st = (st', Return new_user) →
  duplicate_check user (fake_users_db st) = None ∧
  new_user = User.mk (user_id_counter st) (UserCreate.username user)
               (UserCreate.email user) (UserCreate.full_name user) ∧
  st' = mkStore (fake_users_db st ++ [new_user]) (user_id_counter st + 1).
Proof.
  unfold create_user. destruct (duplicate_check _ _) as [exc|] eqn:Hd.
  - intros [= <- ->]. by apply duplicate_check_Some in Hd as [|].
  - by intros [= <- <-].
Qed.

Lemma create_user_raise user st st' code detail :
  create_user user st = (st', HTTPException code detail) → st' = st.
Proof.
  unfold create_user. destruct (duplicate_check _ _); [|done]. by intros [= <- _].
Qed.

Lemma update_user_Return user_id user st st' updated_user :
  update_user user_id user st = (st', Return updated_user) →
  ∃ idx old,
    list_find (λ u, User.id u = user_id) (fake_users_db st) = Some (idx, old) ∧
    updated_user = User.mk user_id (UserCreate.username user)
                     (UserCreate.email user) (UserCreate.full_name user) ∧
    st' = mkStore (<[idx := updated_user]> (fake_users_db st))
            (user_id_counter st).
Proof.
  unfold update_user. destruct (list_find _ _) as [[idx old]|]; [|done].
  intros [= <- <-]. by exists idx, old.
Qed.

Lemma update_user_raise user_id user st st' code detail :
  update_user user_id user st = (st', HTTPException code detail) → st' = st.
Proof.
  unfold update_user. destruct (list_find _ _) as [[??]|]; [done|]. by intros [= <- _].
Qed.

Lemma delete_user_Return user_id st st' m :
  delete_user user_id st = (st', Return m) →
  ∃ idx old,
    list_find (λ u, User.id u = user_id) (fake_users_db st) = Some (idx, old) ∧
    st' = mkStore (delete idx (fake_users_db st)) (user_id_counter st).
Proof.
  unfold delete_user. destruct (list_find _ _) as [[idx old]|]; [|done].
  intros [= <- _]. by exists idx, old.
Qed.

Lemma delete_user_raise user_id st st' code detail :
  delete_user user_id st = (st', HTTPException code detail) → st' = st.
Proof.
  unfold delete_user. destruct (list_find _ _) as [[??]|]; [done|]. by intros [= <- _].
Qed.

(** *** Ids stay distinct and below the counter *)

Lemma startup_ok : store_ok startup.
Proof. split; simpl; constructor. Qed.

Lemma create_user_ok user st : store_ok st → store_ok (create_user user st).1.
Proof.
  intros [Hnd Hlt]. unfold create_user.
  destruct (duplicate_check _ _); [done|]. split; simpl.
  - rewrite fmap_app. apply NoDup_app. split_and!; [done| |apply NoDup_singleton].
    intros i [u [-> Hu]]%list_elem_of_fmap Heq%list_elem_of_singleton.
    rewrite Forall_forall in Hlt. specialize (Hlt _ Hu). simpl in *. lia.
  - apply Forall_app. split; [|repeat constructor; simpl; lia].
    eapply Forall_impl; [done|]. simpl. intros; lia.
Qed.

Lemma update_user_ids user_id user st :
  User.id <$> fake_users_db (update_user user_id user st).1 =
  User.id <$> fake_users_db st.
Proof.
  unfold update_user.
  destruct (list_find _ _) as [[idx old]|] eqn:Hf; [|done]. simpl.
  apply list_find_Some in Hf as (Hi & Hid & _).
  rewrite list_fmap_insert. simpl. apply list_insert_id.
  by rewrite list_lookup_fmap, Hi; simpl; rewrite Hid.
Qed.

Lemma update_user_counter user_id user st :
  user_id_counter (update_user user_id user st).1 = user_id_counter st.
Proof. unfold update_user. by destruct (list_find _ _) as [[??]|]. Qed.

Lemma update_user_ok user_id user st :
  store_ok st → store_ok (update_user user_id user st).1.
Proof.
  intros [Hnd Hlt]. split.
  - by rewrite update_user_ids.
  - rewrite update_user_counter.
    apply (Forall_fmap User.id (λ i, i < user_id_counter st)).
    rewrite update_user_ids. by apply Forall_fmap.
Qed.

Lemma delete_user_sublist user_id st :
  fake_users_db (delete_user user_id st).1 `sublist_of` fake_users_db st.
Proof.
  unfold delete_user. destruct (list_find _ _) as [[??]|]; [|done].
  apply sublist_delete.
Qed.

Lemma delete_user_counter user_id st :
  user_id_counter (delete_user user_id st).1 = user_id_counter st.
Proof. unfold delete_user. by destruct (list_find _ _) as [[??]|]. Qed.

Lemma delete_user_ok user_id st :
  store_ok st → store_ok (delete_user user_id st).1.
Proof.
  intros [Hnd Hlt]. pose proof (delete_user_sublist user_id st) as Hsub. split.
  - eapply sublist_NoDup; [exact Hnd|]. by apply fmap_sublist.
  - rewrite delete_user_counter. rewrite Forall_forall in Hlt |- *.
    intros u Hu. apply Hlt. by eapply elem_of_sublist.
Qed.

(** *** Uniqueness of usernames and emails *)

Lemma NoDup_fmap_insert {A B} (f : A → B) (l : list A) i x z :
  l !! i = Some x →
  NoDup (f <$> l) →
  (∀ j y, l !! j = Some y → j ≠ i → f y ≠ f z) →
  NoDup (f <$> <[i := z]> l).
Proof.
  intros Hi Hnd Hfresh. apply NoDup_alt. intros a b v.
  rewrite !list_lookup_fmap.
  assert (i < length l)%nat as Hlen by by eapply lookup_lt_Some.
  destruct (decide (a = i)) as [->|Ha], (decide (b = i)) as [->|Hb]; [done|..].
  - rewrite list_lookup_insert_eq, list_lookup_insert_ne by done. simpl.
    intros [= <-]. destruct (l !! b) as [y|] eqn:Hy; [|done]. simpl.
    intros [= Heq]. by destruct (Hfresh b y).
  - rewrite list_lookup_insert_eq, list_lookup_insert_ne by done. simpl.
    destruct (l !! a) as [y|] eqn:Hy; [|done]. simpl.
    intros [= <-] [= Heq]. by destruct (Hfresh a y).
  - rewrite !list_lookup_insert_ne by done. rewrite <- !list_lookup_fmap.
    by apply NoDup_alt.
Qed.

Lemma NoDup_fmap_snoc {A B} (f : A → B) (l : list A) z :
  NoDup (f <$> l) → Forall (λ y, f y ≠ f z) l → NoDup (f <$> (l ++ [z])).
Proof.
  intros Hnd Hfresh. rewrite fmap_app. apply NoDup_app.
  split_and!; [done| |apply NoDup_singleton].
  intros v [y [-> Hy]]%list_elem_of_fmap Heq%list_elem_of_singleton.
  rewrite Forall_forall in Hfresh. by destruct (Hfresh y).
Qed.

Lemma collides_false user_id user db :
  collides user_id user db = false →
  Forall (λ u, User.id u ≠ user_id →
               User.username u ≠ UserCreate.username user ∧
               User.email u ≠ UserCreate.email user) db.
Proof.
  induction db as [|e db IH]; simpl; [constructor|].
  intros [He Hdb]%orb_false_iff. constructor; [|by apply IH].
  intros Hid. rewrite (bool_decide_eq_true_2 _ Hid) in He. simpl in He.
  apply orb_false_iff in He as [?%bool_decide_eq_false ?%bool_decide_eq_false].
  done.
Qed.

Lemma create_user_unique user st :
  unique_fields (fake_users_db st) →
  unique_fields (fake_users_db (create_user user st).1).
Proof.
  intros [Hu He]. unfold create_user.
  destruct (duplicate_check _ _) eqn:Hd; [done|]. simpl.
  apply duplicate_check_None in Hd.
  split; apply NoDup_fmap_snoc; try done;
    (eapply Forall_impl; [exact Hd|]); simpl; tauto.
Qed.

Lemma delete_user_unique user_id st :
  unique_fields (fake_users_db st) →
  unique_fields (fake_users_db (delete_user user_id st).1).
Proof.
  intros [Hu He]. pose proof (delete_user_sublist user_id st) as Hsub.
  split; [apply (sublist_NoDup _ _ Hu)|apply (sublist_NoDup _ _ He)];
    by apply fmap_sublist.
Qed.

Lemma update_user_unique user_id user st :
  store_ok st →
  collides user_id user (fake_users_db st) = false →
  unique_fields (fake_users_db st) →
  unique_fields (fake_users_db (update_user user_id user st).1).
Proof.
  intros [Hids _] Hc%collides_false [Hu He]. unfold update_user.
  destruct (list_find _ _) as [[idx old]|] eqn:Hf; [|done]. simpl.
  apply list_find_Some in Hf as (Hidx & Hid & _).
  assert (∀ j y, fake_users_db st !! j = Some y → j ≠ idx →
                 User.id y ≠ user_id) as Hother.
  { intros j y Hj Hne Hy. apply Hne.
    eapply (NoDup_lookup _ j idx user_id); [exact Hids|..];
      rewrite list_lookup_fmap; [by rewrite Hj; simpl; rewrite Hy|].
    by rewrite Hidx; simpl; rewrite Hid. }
  rewrite Forall_lookup in Hc.
  split; (eapply NoDup_fmap_insert; [done..|]); intros j y Hj Hne; simpl;
    by destruct (Hc j y Hj (Hother j y Hj Hne)).
Qed.

(** ** The application as a whole *)

(** The store after a request, handler by handler. *)
Lemma app_store st req :
  (app st req).1 =
  match req with
  | POST_users body =>
      match UserCreate_validate body with
      | inr user => (create_user user st).1
      | inl _ => st
      end
  | PUT_user user_id body =>
      match UserCreate_validate body with
      | inr user => (update_user user_id user st).1
      | inl _ => st
      end
  | DELETE_user user_id => (delete_user user_id st).1
  | _ => st
  end.
Proof.
  destruct req; simpl; unfold with_body, get_user; try done.
  - by destruct (list_find _ _) as [[??]|].
  - destruct (UserCreate_validate body); [done|]. by destruct (create_user _ _).
  - destruct (UserCreate_validate body); [done|]. by destruct (update_user _ _ _).
  - by destruct (delete_user _ _).
Qed.

(** The response to a request, handler by handler. *)
Lemma app_response st req :
  (app st req).2 =
  match req with
  | GET_root => mkResponse 200 root
  | GET_users => mkResponse 200 (JArr (map User_dump (fake_users_db st)))
  | GET_user user_id => respond 200 User_dump (get_user user_id st).2
  | POST_users body =>
      match UserCreate_validate body with
      | inr user => respond 201 User_dump (create_user user st).2
      | inl fields => mkResponse 422 (validation_error body fields)
      end
  | PUT_user user_id body =>
      match UserCreate_validate body with
      | inr user => respond 200 User_dump (update_user user_id user st).2
      | inl fields => mkResponse 422 (validation_error body fields)
      end
  | DELETE_user user_id =>
      respond 200 (λ m, JObj [("message", JStr m)]) (delete_user user_id st).2
  end.
Proof.
  destruct req; simpl; unfold with_body, get_user; try done.
  - by destruct (list_find _ _) as [[??]|].
  - destruct (UserCreate_validate body); [done|]. by destruct (create_user _ _).
  - destruct (UserCreate_validate body); [done|]. by destruct (update_user _ _ _).
  - by destruct (delete_user _ _).
Qed.

Lemma serve_cons st req rest :
  serve st (req :: rest) =
  ((serve (app st req).1 rest).1, (app st req).2 :: (serve (app st req).1 rest).2).
Proof. simpl. destruct (app st req) as [st1 r]. simpl. by destruct (serve st1 rest). Qed.

Lemma serve_app st reqs1 reqs2 :
  serve st (reqs1 ++ reqs2) =
  ((serve (serve st reqs1).1 reqs2).1,
   (serve st reqs1).2 ++ (serve (serve st reqs1).1 reqs2).2).
Proof.
  revert st. induction reqs1 as [|req reqs1 IH]; intros st.
  - simpl. by destruct (serve st reqs2).
  - rewrite <- app_comm_cons, !serve_cons, IH. done.
Qed.

Lemma app_ok st req : store_ok st → store_ok (app st req).1.
Proof.
  intros Hok. rewrite app_store. destruct req; try done.
  - destruct (UserCreate_validate body); [done|]. by apply create_user_ok.
  - destruct (UserCreate_validate body); [done|]. by apply update_user_ok.
  - by apply delete_user_ok.
Qed.

Lemma serve_ok st reqs : store_ok st → store_ok (serve st reqs).1.
Proof.
  revert st. induction reqs as [|req reqs IH]; intros st Hok; [done|].
  rewrite serve_cons. simpl. by apply IH, app_ok.
Qed.

(** Every state the process can be in has distinct ids below the counter. *)
Lemma reachable_ok reqs : store_ok (serve startup reqs).1.
Proof. apply serve_ok, startup_ok. Qed.

(** *** The counter *)

Lemma app_counter st req :
  user_id_counter (app st req).1 =
  if assigned_id (app st req).2 is Some _
  then user_id_counter st + 1 else user_id_counter st.
Proof.
  rewrite app_store, app_response. unfold assigned_id.
  destruct req; simpl; try done.
  - unfold get_user. by destruct (list_find _ _) as [[??]|].
  - destruct (UserCreate_validate body); [done|]. unfold create_user.
    destruct (duplicate_check _ _) as [exc|] eqn:Hd; [|done].
    by apply duplicate_check_Some in Hd as [-> | ->].
  - destruct (UserCreate_validate body); [done|].
    rewrite update_user_counter. unfold update_user.
    by destruct (list_find _ _) as [[??]|].
  - rewrite delete_user_counter. unfold delete_user.
    by destruct (list_find _ _) as [[??]|].
Qed.

Lemma app_assigned_id st req z :
  assigned_id (app st req).2 = Some z → z = user_id_counter st.
Proof.
  rewrite app_response. unfold assigned_id.
  destruct req; simpl; try done.
  - unfold get_user. by destruct (list_find _ _) as [[??]|].
  - destruct (UserCreate_validate body); [done|]. unfold create_user.
    destruct (duplicate_check _ _) as [exc|] eqn:Hd.
    + by apply duplicate_check_Some in Hd as [-> | ->].
    + simpl. by intros [= <-].
  - destruct (UserCreate_validate body); [done|]. unfold update_user.
    by destruct (list_find _ _) as [[??]|].
  - unfold delete_user. by destruct (list_find _ _) as [[??]|].
Qed.

Lemma app_counter_mono st req :
  user_id_counter st ≤ user_id_counter (app st req).1.
Proof. rewrite app_counter. destruct (assigned_id _); lia. Qed.

Lemma created_ids_from st reqs :
  StronglySorted Z.lt (created_ids (serve st reqs).2) ∧
  Forall (λ i, user_id_counter st ≤ i) (created_ids (serve st reqs).2).
Proof.
  revert st. induction reqs as [|req reqs IH]; intros st.
  { split; constructor. }
  rewrite serve_cons. unfold created_ids in *. simpl.
  destruct (IH (app st req).1) as [Hs Hge].
  pose proof (app_counter st req) as Hc.
  destruct (assigned_id (app st req).2) as [z|] eqn:Hz.
  - apply app_assigned_id in Hz as ->. split.
    + constructor; [done|]. eapply Forall_impl; [done|]. simpl. intros; lia.
    + constructor; [lia|]. eapply Forall_impl; [done|]. simpl. intros; lia.
  - split; [done|]. eapply Forall_impl; [done|]. simpl. intros; lia.
Qed.

(** C3: whenever a request is answered with an error (422 validation
    failure, 404 not found, 400 username or email conflict), the store after
    the request, list and counter, is the store before it. *)
Theorem error_leaves_store st req :
  is_error (app st req).2 → (app st req).1 = st.
Proof.
  unfold is_error. rewrite app_store, app_response.
  destruct req; try done.
  - destruct (UserCreate_validate body); [done|].
    destruct (create_user t st) as [st' [u|code detail]] eqn:Hc; simpl.
    + lia.
    + intros _. by eapply create_user_raise.
  - destruct (UserCreate_validate body); [done|].
    destruct (update_user user_id t st) as [st' [u|code detail]] eqn:Hu; simpl.
    + lia.
    + intros _. by eapply update_user_raise.
  - destruct (delete_user user_id st) as [st' [m|code detail]] eqn:Hd; simpl.
    + lia.
    + intros _. by eapply delete_user_raise.
Qed.

Lemma serve_counter st reqs :
  user_id_counter (serve st reqs).1 =
  user_id_counter st + Z.of_nat (length (created_ids (serve st reqs).2)).
Proof.
  revert st. induction reqs as [|req reqs IH]; intros st; [simpl; lia|].
  rewrite serve_cons. unfold created_ids in *. cbn [fst snd omap list_omap].
  rewrite IH, app_counter.
  destruct (assigned_id (app st req).2); cbn [length]; lia.
Qed.

(** C4: in any run of requests, from any store, the ids echoed by the
    successful creations are strictly increasing in creation order, hence
    pairwise distinct: no id is handed out twice, whatever deletions and
    updates happen in between.  They start at the counter, and the counter
    ends up advanced by exactly their number. *)
Theorem created_ids_increasing st reqs :
  StronglySorted Z.lt (created_ids (serve st reqs).2) ∧
  NoDup (created_ids (serve st reqs).2) ∧
  Forall (λ i, user_id_counter st ≤ i) (created_ids (serve st reqs).2) ∧
  user_id_counter (serve st reqs).1 =
  user_id_counter st + Z.of_nat (length (created_ids (serve st reqs).2)).
Proof.
  destruct (created_ids_from st reqs) as [Hs Hge].
  split_and!; [done| |done|apply serve_counter].
  clear Hge. induction Hs as [|z ids _ IH Hlt]; constructor; [|done].
  intros Hin. rewrite Forall_forall in Hlt. specialize (Hlt _ Hin). lia.
Qed.

Lemma serve_unique st reqs :
  store_ok st →
  unique_fields (fake_users_db st) →
  updates_apart st reqs = true →
  unique_fields (fake_users_db (serve st reqs).1).
Proof.
  revert st. induction reqs as [|req reqs IH]; intros st Hok Hun; [done|].
  simpl updates_apart. intros [Hreq Hrest]%andb_true_iff.
  rewrite serve_cons. simpl. apply IH; [by apply app_ok| |done].
  rewrite app_store. destruct req; try done.
  - destruct (UserCreate_validate body); [done|]. by apply create_user_unique.
  - destruct (UserCreate_validate body) as [|user]; [done|].
    destruct (update_user user_id user st) as [st' [u|code detail]] eqn:Hupd.
    + replace st' with (update_user user_id user st).1 by by rewrite Hupd.
      apply update_user_unique; [done| |done]. by apply negb_true_iff.
    + simpl. by rewrite (update_user_raise _ _ _ _ _ _ Hupd).
  - by apply delete_user_unique.
Qed.

(** C1 (amended): in every store reached from the empty store by creations,
    deletions and updates, provided no update that goes through carries a
    username or an email held by another record, no two stored records share
    a username and no two share an email. *)
Theorem reachable_unique_fields reqs :
  updates_apart startup reqs = true →
  unique_fields (fake_users_db (serve startup reqs).1).
Proof.
  apply serve_unique; [apply startup_ok|]. split; constructor.
Qed.

(** *** Which conflict is reported *)

Lemma duplicate_check_first user db i j a b :
  list_find (λ u, User.username u = UserCreate.username user) db = Some (i, a) →
  list_find (λ u, User.email u = UserCreate.email user) db = Some (j, b) →
  duplicate_check user db =
  Some (HTTPException 400 (if decide (i ≤ j)%nat then detail_username_exists
                           else detail_email_exists)).
Proof.
  revert i j a b. induction db as [|e db IH]; intros i j a b; [done|].
  cbn [list_find duplicate_check].
  destruct (decide (User.username e = _)) as [Hu|Hu].
  { intros [= <- <-] _. by rewrite decide_True by lia. }
  destruct (list_find (λ u, User.username u = _) db) as [[i' a']|] eqn:Hi;
    [|done].
  intros [= <- <-].
  destruct (decide (User.email e = _)) as [He|He].
  { intros [= <- <-]. by rewrite decide_False by lia. }
  destruct (list_find (λ u, User.email u = _) db) as [[j' b']|] eqn:Hj;
    [|done].
  intros [= <- <-]. rewrite (IH i' j' a' b') by done.
  do 2 f_equal. repeat case_decide; (done || lia).
Qed.

(** C2 (amended): when a creation payload duplicates the username of one
    stored record and the email of another, the conflict reported is the one
    of the record that comes first in the list: the username conflict if the
    record with that username was inserted before the record with that
    email, the email conflict if it was inserted after it.  The store is
    left as it was. *)
Theorem create_reports_first_conflict user st i j a b :
  list_find (λ u, User.username u = UserCreate.username user)
            (fake_users_db st) = Some (i, a) →
  list_find (λ u, User.email u = UserCreate.email user)
            (fake_users_db st) = Some (j, b) →
  create_user user st =
  (st, HTTPException 400 (if decide (i ≤ j)%nat then detail_username_exists
                          else detail_email_exists)).
Proof.
  intros Hi Hj. unfold create_user.
  by rewrite (duplicate_check_first user _ i j a b).
Qed.

(** C5: when some stored record has the requested id and the body is valid,
    the update is answered 200 with the replacing record under that id, and
    that record is in the store afterwards; nothing is asked about the
    usernames and emails of the other records. *)
Theorem update_has_no_uniqueness_check st user_id body user old :
  UserCreate_validate body = inr user →
  old ∈ fake_users_db st →
  User.id old = user_id →
  let updated_user :=
    User.mk user_id (UserCreate.username user) (UserCreate.email user)
            (UserCreate.full_name user) in
  (app st (PUT_user user_id body)).2 = mkResponse 200 (User_dump updated_user) ∧
  updated_user ∈ fake_users_db (app st (PUT_user user_id body)).1.
Proof.
  intros Hv Hin Hid upd. rewrite app_store, app_response, Hv.
  destruct (list_find_elem_of (λ u, User.id u = user_id) _ old Hin Hid)
    as [[idx x] Hf].
  unfold update_user. rewrite Hf. simpl. split; [done|].
  apply list_find_Some in Hf as (Hidx & _ & _).
  apply list_elem_of_lookup. exists idx.
  apply list_lookup_insert_eq. by eapply lookup_lt_Some.
Qed.

(** C7: a successful update overwrites exactly one slot of the list: the
    slot held a record with the requested id, it now holds the returned
    record, whose id is the same; the list keeps its length, every other
    slot keeps its record, and the counter is untouched. *)
Theorem update_in_place user_id user st st' updated_user :
  update_user user_id user st = (st', Return updated_user) →
  ∃ idx old,
    fake_users_db st !! idx = Some old ∧ User.id old = user_id ∧
    fake_users_db st' !! idx = Some updated_user ∧
    User.id updated_user = user_id ∧
    length (fake_users_db st') = length (fake_users_db st) ∧
    (∀ j, j ≠ idx → fake_users_db st' !! j = fake_users_db st !! j) ∧
    user_id_counter st' = user_id_counter st.
Proof.
  intros (idx & old & Hf & -> & ->)%update_user_Return.
  apply list_find_Some in Hf as (Hidx & Hid & _).
  exists idx, old. simpl. split_and!; try done.
  - apply list_lookup_insert_eq. by eapply lookup_lt_Some.
  - apply length_insert.
  - intros j Hj. by apply list_lookup_insert_ne.
Qed.

(** *** Request validation *)

Lemma handler_status user_id user st :
  (status_code (respond 201 User_dump (create_user user st).2) = 201 ∨
   status_code (respond 201 User_dump (create_user user st).2) = 400) ∧
  (status_code (respond 200 User_dump (update_user user_id user st).2) = 200 ∨
   status_code (respond 200 User_dump (update_user user_id user st).2) = 404).
Proof.
  split.
  - unfold create_user. destruct (duplicate_check _ _) as [exc|] eqn:Hd;
      [|simpl; auto].
    apply duplicate_check_Some in Hd as [-> | ->]; simpl; auto.
  - unfold update_user. destruct (list_find _ _) as [[??]|]; simpl; auto.
Qed.

Lemma UserCreate_validate_inl body fields :
  UserCreate_validate body = inl fields → fields = UserCreate_errors body.
Proof.
  unfold UserCreate_validate.
  destruct (body_username body), (body_email body ≫= EmailStr),
    (body_password body); congruence.
Qed.

Lemma UserCreate_validate_errors body :
  UserCreate_errors body ≠ [] →
  UserCreate_validate body = inl (UserCreate_errors body).
Proof.
  unfold UserCreate_validate, UserCreate_errors.
  by destruct (body_username body), (body_email body ≫= EmailStr),
    (body_password body).
Qed.

(** C6 (amended): a creation or update body without a username is answered
    422 with a validation failure that names the username field, and the
    store is not touched.  A username that is present passes validation
    whatever its length, the empty string included: a validation failure of
    such a body never names the username field, and with an accepted email
    and a password the body is turned into the payload with that username
    and the request is not answered 422. *)
Theorem missing_username_rejected st req body :
  (req = POST_users body ∨ ∃ user_id, req = PUT_user user_id body) →
  (body_username body = None →
   app st req =
     (st, mkResponse 422 (validation_error body (UserCreate_errors body))) ∧
   "username" ∈ UserCreate_errors body) ∧
  (∀ u, body_username body = Some u →
     (∀ fields, UserCreate_validate body = inl fields → "username" ∉ fields) ∧
     (∀ e p, body_email body ≫= EmailStr = Some e →
             body_password body = Some p →
        UserCreate_validate body =
          inr (UserCreate.mk u e p (body_full_name body)) ∧
        status_code (app st req).2 ≠ 422)).
Proof.
  intros Hreq. split.
  - intros Hnone.
    assert ("username" ∈ UserCreate_errors body) as Hin.
    { unfold UserCreate_errors. rewrite Hnone. apply list_elem_of_here. }
    split; [|done].
    assert (UserCreate_errors body ≠ []) as Hne.
    { intros Heq. rewrite Heq in Hin. by apply elem_of_nil in Hin. }
    apply UserCreate_validate_errors in Hne.
    destruct Hreq as [->|[user_id ->]]; simpl; unfold with_body; by rewrite Hne.
  - intros u Hu. split.
    + intros fields ->%UserCreate_validate_inl Hin.
      unfold UserCreate_errors in Hin. rewrite Hu in Hin.
      destruct (body_email body ≫= EmailStr), (body_password body);
        simpl in Hin;
        repeat (apply elem_of_cons in Hin as [Hin|Hin]; [done|]);
        by apply elem_of_nil in Hin.
    + intros e p He Hp.
      assert (UserCreate_validate body =
              inr (UserCreate.mk u e p (body_full_name body))) as Hv.
      { unfold UserCreate_validate. by rewrite Hu, He, Hp. }
      split; [done|]. rewrite app_response.
      destruct Hreq as [->|[user_id ->]]; rewrite Hv.
      * destruct (handler_status 0 (UserCreate.mk u e p (body_full_name body))
                    st) as [[Hc|Hc] _]; by rewrite Hc.
      * destruct (handler_status user_id
                    (UserCreate.mk u e p (body_full_name body)) st)
          as [_ [Hc|Hc]]; by rewrite Hc.
Qed.

(** C10: an update body without a password is answered 422 with a
    validation failure that names the password field, and the handler is
    not run: the store is the one before the request. *)
Theorem update_requires_password st user_id body :
  body_password body = None →
  app st (PUT_user user_id body) =
  (st, mkResponse 422 (validation_error body (UserCreate_errors body))) ∧
  "password" ∈ UserCreate_errors body.
Proof.
  intros Hnone.
  assert ("password" ∈ UserCreate_errors body) as Hin.
  { unfold UserCreate_errors. rewrite Hnone. rewrite !elem_of_app. right. right.
    apply list_elem_of_singleton. done. }
  split; [|done]. simpl. unfold with_body.
  rewrite UserCreate_validate_errors; [done|].
  intros Heq. rewrite Heq in Hin. by apply elem_of_nil in Hin.
Qed.

(** *** What the responses carry *)











(** *** Deletion *)

Lemma delete_first_is_filter (db : list User.t) user_id idx x :
  NoDup (User.id <$> db) →
  list_find (λ u, User.id u = user_id) db = Some (idx, x) →
  delete idx db = filter (λ u, User.id u ≠ user_id) db.
Proof.
  revert idx. induction db as [|e db IH]; intros idx Hnd; [done|].
  rewrite fmap_cons in Hnd. apply NoDup_cons in Hnd as [Hnotin Hnd].
  cbn [list_find]. destruct (decide (User.id e = user_id)) as [He|He].
  - intros [= <- <-]. rewrite filter_cons_False by (intros ?; done). simpl.
    clear IH. induction db as [|e' db IH]; [done|].
    rewrite fmap_cons in Hnotin, Hnd.
    apply not_elem_of_cons in Hnotin as [Hne Hnotin].
    apply NoDup_cons in Hnd as [_ Hnd].
    rewrite filter_cons_True by congruence. f_equal. by apply IH.
  - destruct (list_find _ db) as [[i' x']|] eqn:Hf; [|done].
    intros [= <- <-]. rewrite filter_cons_True by done. simpl. f_equal.
    by apply IH.
Qed.

Lemma app_keeps_id_out user_id st req :
  user_id < user_id_counter st →
  user_id ∉ User.id <$> fake_users_db st →
  user_id ∉ User.id <$> fake_users_db (app st req).1.
Proof.
  intros Hlt Hout. rewrite app_store. destruct req; try done.
  - destruct (UserCreate_validate body); [done|]. unfold create_user.
    destruct (duplicate_check _ _); [done|]. simpl.
    rewrite fmap_app, not_elem_of_app. split; [done|]. simpl.
    apply not_elem_of_cons. split; [lia|apply not_elem_of_nil].
  - destruct (UserCreate_validate body); [done|]. by rewrite update_user_ids.
  - intros Hin. apply Hout. eapply elem_of_sublist; [done|].
    apply fmap_sublist, delete_user_sublist.
Qed.

Lemma serve_keeps_id_out user_id st reqs :
  user_id < user_id_counter st →
  user_id ∉ User.id <$> fake_users_db st →
  user_id ∉ User.id <$> fake_users_db (serve st reqs).1.
Proof.
  revert st. induction reqs as [|req reqs IH]; intros st Hlt Hout; [done|].
  rewrite serve_cons. simpl. apply IH; [|by apply app_keeps_id_out].
  pose proof (app_counter_mono st req). lia.
Qed.

(** C9: in any store the process can reach that holds a record with the
    given id, deleting that id is answered 200; afterwards the list
    operation does not return the record, getting the id is answered 404,
    and the list is the former one without that record, the others in their
    former order.  Whatever requests follow, no stored record has that id
    again. *)
Theorem delete_then_gone reqs user_id r :
  let st := (serve startup reqs).1 in
  r ∈ fake_users_db st →
  User.id r = user_id →
  let st' := (app st (DELETE_user user_id)).1 in
  (app st (DELETE_user user_id)).2 =
    mkResponse 200 (JObj [("message", JStr message_deleted)]) ∧
  (∀ l, (get_users st').2 = Return l → r ∉ l) ∧
  (app st' (GET_user user_id)).2 =
    mkResponse 404 (JObj [("detail", JStr detail_not_found)]) ∧
  fake_users_db st' = filter (λ u, User.id u ≠ user_id) (fake_users_db st) ∧
  (∀ later, Forall (λ u, User.id u ≠ user_id)
                   (fake_users_db (serve st' later).1)).
Proof.
  intros st Hin Hid st'.
  destruct (reachable_ok reqs) as [Hnd Hlt]. fold st in Hnd, Hlt.
  destruct (list_find_elem_of (λ u, User.id u = user_id) _ r Hin Hid)
    as [[idx x] Hf].
  assert (fake_users_db st' =
          filter (λ u, User.id u ≠ user_id) (fake_users_db st)) as Hdb.
  { subst st'. rewrite app_store. unfold delete_user. rewrite Hf. simpl.
    by apply (delete_first_is_filter _ _ _ x). }
  assert (user_id ∉ User.id <$> fake_users_db st') as Hout.
  { rewrite Hdb. intros [u [Hu [Hne _]%list_elem_of_filter]]%list_elem_of_fmap.
    done. }
  split_and!.
  - rewrite app_response. unfold delete_user. by rewrite Hf.
  - intros l [= <-]. rewrite Hdb. intros [Hne _]%list_elem_of_filter. done.
  - rewrite app_response. unfold get_user.
    destruct (list_find _ (fake_users_db st')) as [[i y]|] eqn:Hg; [|done].
    apply list_find_Some in Hg as (Hi & Hy & _). destruct Hout.
    apply list_elem_of_fmap. exists y. split; [done|].
    by eapply list_elem_of_lookup_2.
  - done.
  - intros later. apply Forall_forall. intros u Hu Heq.
    apply (serve_keeps_id_out user_id st' later); [| done |].
    + subst st'. rewrite app_store, delete_user_counter.
      rewrite Forall_forall in Hlt. specialize (Hlt _ Hin). lia.
    + apply list_elem_of_fmap. by exists u.
Qed.

(** ** Further properties of the handlers *)

(** *** Creation *)

Lemma duplicate_check_app user l1 l2 :
  duplicate_check user (l1 ++ l2) =
  match duplicate_check user l1 with
  | Some exc => Some exc
  | None => duplicate_check user l2
  end.
Proof.
  induction l1 as [|e l1 IH]; simpl; [done|]. by repeat case_decide.
Qed.

Lemma duplicate_check_Exists user db exc :
  duplicate_check user db = Some exc →
  Exists (λ u, User.username u = UserCreate.username user ∨
               User.email u = UserCreate.email user) db.
Proof.
  induction db as [|e db IH]; simpl; [done|].
  repeat case_decide; intros Hd.
  - apply Exists_cons_hd. by left.
  - apply Exists_cons_hd. by right.
  - by apply Exists_cons_tl, IH.
Qed.

(** X1: a creation goes through exactly when no stored record has the
    username or the email of the payload; it is refused with status 400
    exactly when some stored record has one of them. *)
Theorem create_accepts_iff user st :
  ((create_user user st).2 =
     Return (User.mk (user_id_counter st) (UserCreate.username user)
                     (UserCreate.email user) (UserCreate.full_name user)) ↔
   Forall (λ u, User.username u ≠ UserCreate.username user ∧
                User.email u ≠ UserCreate.email user) (fake_users_db st)) ∧
  ((∃ detail, (create_user user st).2 = HTTPException 400 detail) ↔
   Exists (λ u, User.username u = UserCreate.username user ∨
                User.email u = UserCreate.email user) (fake_users_db st)).
Proof.
  rewrite <- duplicate_check_None. unfold create_user.
  destruct (duplicate_check _ _) as [exc|] eqn:Hd; simpl.
  - pose proof (duplicate_check_Exists _ _ _ Hd) as Hex.
    apply duplicate_check_Some in Hd as [-> | ->];
      (split; split; [done|done|done|by eauto]).
  - split; split; try done.
    + by intros [detail ?].
    + intros Hex. apply duplicate_check_None in Hd.
      apply Exists_exists in Hex as (u & Hu & Hconf).
      rewrite Forall_forall in Hd. destruct (Hd u Hu). tauto.
Qed.

(** X2: when some stored record has the username of the payload and none has
    its email, the creation is refused with the username message, and the
    store is left as it was. *)
Theorem username_conflict_alone user st :
  Exists (λ u, User.username u = UserCreate.username user) (fake_users_db st) →
  Forall (λ u, User.email u ≠ UserCreate.email user) (fake_users_db st) →
  create_user user st = (st, HTTPException 400 detail_username_exists).
Proof.
  intros Hex Hall. unfold create_user.
  enough (duplicate_check user (fake_users_db st) =
          Some (HTTPException 400 detail_username_exists)) as -> by done.
  induction Hall as [|e db He Hall IH]; [by apply Exists_nil in Hex|].
  simpl. apply Exists_cons in Hex as [Hu|Hex].
  - by rewrite decide_True.
  - case_decide; [done|]. rewrite decide_False by done. by apply IH.
Qed.

(** X3: when some stored record has the email of the payload and none has
    its username, the creation is refused with the email message, and the
    store is left as it was. *)
Theorem email_conflict_alone user st :
  Exists (λ u, User.email u = UserCreate.email user) (fake_users_db st) →
  Forall (λ u, User.username u ≠ UserCreate.username user) (fake_users_db st) →
  create_user user st = (st, HTTPException 400 detail_email_exists).
Proof.
  intros Hex Hall. unfold create_user.
  enough (duplicate_check user (fake_users_db st) =
          Some (HTTPException 400 detail_email_exists)) as -> by done.
  induction Hall as [|e db He Hall IH]; [by apply Exists_nil in Hex|].
  simpl. rewrite decide_False by done. apply Exists_cons in Hex as [Hu|Hex].
  - by rewrite decide_True.
  - case_decide; [done|]. by apply IH.
Qed.

(** X4: a payload that has just been created cannot be created again: the
    second attempt, in the store the first one left, is refused with the
    username message and changes nothing. *)
Theorem create_twice_refused user st st' new_user :
  create_user user st = (st', Return new_user) →
  create_user user st' = (st', HTTPException 400 detail_username_exists).
Proof.
  intros (Hd & -> & ->)%create_user_Return. unfold create_user. simpl.
  rewrite duplicate_check_app, Hd. simpl. by rewrite decide_True.
Qed.

(** *** Lookup by id *)

(** X5: each of get, update and delete raises the 404 exception exactly when
    no stored record has the requested id. *)
Theorem not_found_iff_absent user_id user st :
  let absent := Forall (λ u, User.id u ≠ user_id) (fake_users_db st) in
  ((get_user user_id st).2 = HTTPException 404 detail_not_found ↔ absent) ∧
  ((update_user user_id user st).2 = HTTPException 404 detail_not_found
     ↔ absent) ∧
  ((delete_user user_id st).2 = HTTPException 404 detail_not_found ↔ absent).
Proof.
  intros absent. subst absent.
  rewrite <- (list_find_None (λ u, User.id u = user_id)).
  unfold get_user, update_user, delete_user.
  destruct (list_find _ _) as [[idx x]|]; simpl; split_and!; by split.
Qed.

Lemma list_find_insert_first {A} (P : A → Prop) `{∀ x, Decision (P x)}
    (l : list A) idx old x :
  list_find P l = Some (idx, old) → P x →
  list_find P (<[idx := x]> l) = Some (idx, x).
Proof.
  intros (Hidx & _ & Hfirst)%list_find_Some HP. apply list_find_Some.
  split_and!; [|done|].
  - apply list_lookup_insert_eq. by eapply lookup_lt_Some.
  - intros j y Hj Hlt. rewrite list_lookup_insert_ne in Hj by lia. eauto.
Qed.

(** X6: after an update that went through, getting the same id returns the
    record the update returned, in any store. *)
Theorem update_then_get user_id user st st' updated_user :
  update_user user_id user st = (st', Return updated_user) →
  get_user user_id st' = (st', Return updated_user).
Proof.
  intros (idx & old & Hf & -> & ->)%update_user_Return.
  unfold get_user. simpl.
  by rewrite (list_find_insert_first _ _ idx old).
Qed.

(** X7: sending the same update twice has the effect and the answer of
    sending it once. *)
Theorem update_twice user_id user st :
  update_user user_id user (update_user user_id user st).1 =
  update_user user_id user st.
Proof.
  unfold update_user at 2 3.
  destruct (list_find _ (fake_users_db st)) as [[idx old]|] eqn:Hf; simpl.
  - unfold update_user. simpl.
    rewrite (list_find_insert_first _ _ idx old) by done. simpl.
    by rewrite list_insert_insert_eq.
  - unfold update_user. by rewrite Hf.
Qed.

(** *** Deletion *)

(** X8: a deletion that goes through removes exactly one record, the first
    one with the requested id; the records before and after it stay, in
    order, and the counter is not touched. *)
Theorem delete_removes_first user_id st st' m :
  delete_user user_id st = (st', Return m) →
  ∃ before x after,
    fake_users_db st = before ++ x :: after ∧
    User.id x = user_id ∧
    Forall (λ u, User.id u ≠ user_id) before ∧
    fake_users_db st' = before ++ after ∧
    user_id_counter st' = user_id_counter st.
Proof.
  intros (idx & x & Hf & ->)%delete_user_Return.
  apply list_find_Some in Hf as (Hidx & Hid & Hfirst).
  exists (take idx (fake_users_db st)), x, (drop (S idx) (fake_users_db st)).
  simpl. split_and!; try done.
  - by rewrite take_drop_middle.
  - apply Forall_lookup. intros j y Hj.
    apply lookup_take_Some in Hj as [Hj Hlt]. eauto.
  - apply delete_take_drop.
Qed.

(** X9: in a store the process can reach, an id that has just been deleted
    cannot be deleted again: the second deletion raises 404 and leaves the
    store as the first one left it. *)
Theorem delete_twice_not_found reqs user_id m :
  let st := (serve startup reqs).1 in
  (delete_user user_id st).2 = Return m →
  delete_user user_id (delete_user user_id st).1 =
  ((delete_user user_id st).1, HTTPException 404 detail_not_found).
Proof.
  intros st Hdel. destruct (reachable_ok reqs) as [Hnd _]. fold st in Hnd.
  unfold delete_user in Hdel |- *.
  destruct (list_find _ (fake_users_db st)) as [[idx x]|] eqn:Hf; [|done].
  simpl. rewrite (delete_first_is_filter _ _ _ _ Hnd Hf).
  destruct (list_find _ (filter _ _)) as [[j y]|] eqn:Hg; [|done].
  apply list_find_Some in Hg as (Hj & Hy & _).
  apply list_elem_of_lookup_2, list_elem_of_filter in Hj as [Hne _]. done.
Qed.

(** *** What one request does to the list *)

(** X10: a request changes the length of the list by at most one: a creation
    answered 201 adds one record, a deletion answered 200 removes one, and
    every other request, whatever its answer, keeps the length. *)
Theorem length_after_request st req :
  let n := length (fake_users_db st) in
  let n' := length (fake_users_db (app st req).1) in
  let code := status_code (app st req).2 in
  match req with
  | POST_users _ => if decide (code = 201) then n' = S n else n' = n
  | DELETE_user _ => if decide (code = 200) then S n' = n else n' = n
  | _ => n' = n
  end.
Proof.
  intros n n' code. subst n n' code. rewrite app_store, app_response.
  destruct req; try done.
  - destruct (UserCreate_validate body) as [|user]; [done|].
    unfold create_user. destruct (duplicate_check _ _) as [exc|] eqn:Hd.
    + by apply duplicate_check_Some in Hd as [-> | ->].
    + simpl. rewrite length_app. simpl. lia.
  - destruct (UserCreate_validate body) as [|user]; [done|].
    unfold update_user. destruct (list_find _ _) as [[idx x]|]; [|done].
    simpl. apply length_insert.
  - unfold delete_user.
    destruct (list_find _ _) as [[idx x]|] eqn:Hf; [|done]. simpl.
    apply list_find_Some in Hf as (Hidx & _ & _).
    rewrite length_delete by eauto. apply lookup_lt_Some in Hidx. lia.
Qed.

Lemma find_record_middle {A} (P : A → Prop) `{∀ x, Decision (P x)}
    (l1 l2 : list A) x :
  ¬ P x →
  snd <$> list_find P (l1 ++ x :: l2) = snd <$> list_find P (l1 ++ l2).
Proof.
  intros Hx. induction l1 as [|a l1 IH]; simpl.
  - rewrite decide_False by done. by destruct (list_find P l2) as [[??]|].
  - case_decide; [done|].
    destruct (list_find P (l1 ++ x :: l2)) as [[??]|],
      (list_find P (l1 ++ l2)) as [[??]|]; simpl in *; congruence.
Qed.

Lemma find_record_snoc {A} (P : A → Prop) `{∀ x, Decision (P x)}
    (l : list A) x :
  ¬ P x → snd <$> list_find P (l ++ [x]) = snd <$> list_find P l.
Proof.
  intros Hx. rewrite (find_record_middle P l [] x Hx). by rewrite app_nil_r.
Qed.

Lemma get_user_find user_id st :
  (get_user user_id st).2 =
  match snd <$> list_find (λ u, User.id u = user_id) (fake_users_db st) with
  | Some u => Return u
  | None => HTTPException 404 detail_not_found
  end.
Proof. unfold get_user. by destruct (list_find _ _) as [[??]|]. Qed.

(** X11: a request leaves alone what get answers for the ids it is not
    about: an update or a deletion of one id changes nothing for any other
    id, a creation changes nothing for any id but the one it hands out, and
    the reading routes change nothing at all. *)
Theorem get_of_other_ids_unchanged st req other_id :
  match req with
  | PUT_user target _ | DELETE_user target => target ≠ other_id
  | POST_users _ => other_id ≠ user_id_counter st
  | _ => True
  end →
  (get_user other_id (app st req).1).2 = (get_user other_id st).2.
Proof.
  intros Hother. rewrite !get_user_find, app_store. destruct req; try done.
  - destruct (UserCreate_validate body) as [|user]; [done|].
    unfold create_user. destruct (duplicate_check _ _); [done|]. simpl.
    by rewrite find_record_snoc.
  - destruct (UserCreate_validate body) as [|user]; [done|].
    unfold update_user.
    destruct (list_find (λ u, User.id u = user_id) (fake_users_db st))
      as [[idx x]|] eqn:Hf; [|done]. simpl.
    apply list_find_Some in Hf as (Hidx & Hid & _).
    rewrite insert_take_drop by by eapply lookup_lt_Some.
    rewrite <- (take_drop_middle (fake_users_db st) idx x Hidx) at 3.
    rewrite !find_record_middle; [done|congruence|done].
  - unfold delete_user.
    destruct (list_find (λ u, User.id u = user_id) (fake_users_db st))
      as [[idx x]|] eqn:Hf; [|done]. simpl.
    apply list_find_Some in Hf as (Hidx & Hid & _).
    rewrite delete_take_drop.
    rewrite <- (take_drop_middle (fake_users_db st) idx x Hidx) at 3.
    rewrite find_record_middle; [done|congruence].
Qed.

(** *** Runs *)

(** X12: a run made of reading requests only (health check, list, get)
    leaves the store as it was, and each of its answers is the answer the
    request would have got at the start of the run. *)
Theorem reads_change_nothing st reqs :
  forallb is_read reqs = true →
  (serve st reqs).1 = st ∧
  (serve st reqs).2 = map (λ req, (app st req).2) reqs.
Proof.
  induction reqs as [|req reqs IH]; [done|].
  simpl forallb. intros [Hreq Hreqs]%andb_true_iff.
  rewrite serve_cons.
  assert ((app st req).1 = st) as ->
    by (rewrite app_store; by destruct req).
  destruct (IH Hreqs) as [-> ->]. done.
Qed.

Lemma StronglySorted_sublist {A} (R : relation A) (l1 l2 : list A) :
  l1 `sublist_of` l2 → StronglySorted R l2 → StronglySorted R l1.
Proof.
  induction 1 as [|x l1 l2 Hsub IH|x l1 l2 Hsub IH]; [done|..].
  - intros [Hall Hs]%StronglySorted_cons. apply StronglySorted_cons.
    split; [|by apply IH]. rewrite Forall_forall in Hall |- *.
    intros y Hy. apply Hall. by eapply elem_of_sublist.
  - intros [_ Hs]%StronglySorted_cons. by apply IH.
Qed.

Lemma sorted_range_length (l : list Z) lo hi :
  StronglySorted Z.lt l → Forall (λ i, lo ≤ i < hi) l →
  Z.of_nat (length l) ≤ Z.max 0 (hi - lo).
Proof.
  intros Hs. revert lo. induction Hs as [|x l Hs IH Hlt]; intros lo Hr.
  { simpl. lia. }
  apply Forall_cons in Hr as [Hx Hr].
  assert (Forall (λ i, lo + 1 ≤ i < hi) l) as Hr'.
  { rewrite Forall_forall in Hlt, Hr |- *. intros y Hy.
    specialize (Hlt y Hy). specialize (Hr y Hy). lia. }
  specialize (IH _ Hr'). simpl length. lia.
Qed.

Lemma app_sorted st req :
  StronglySorted Z.lt (User.id <$> fake_users_db st) ∧
  Forall (λ u, 1 ≤ User.id u < user_id_counter st) (fake_users_db st) ∧
  1 ≤ user_id_counter st →
  StronglySorted Z.lt (User.id <$> fake_users_db (app st req).1) ∧
  Forall (λ u, 1 ≤ User.id u < user_id_counter (app st req).1)
         (fake_users_db (app st req).1) ∧
  1 ≤ user_id_counter (app st req).1.
Proof.
  intros (Hs & Hr & Hone).
  pose proof (app_counter_mono st req) as Hmono.
  assert (Forall (λ u, 1 ≤ User.id u < user_id_counter (app st req).1)
                 (fake_users_db st)) as Hr'.
  { eapply Forall_impl; [exact Hr|]. simpl. intros; lia. }
  split_and!; [| |lia]; revert Hr'; clear Hmono; rewrite app_store;
    destruct req; try done.
  - destruct (UserCreate_validate body) as [|user]; [done|].
    unfold create_user. destruct (duplicate_check _ _); [done|].
    simpl. intros _. rewrite fmap_app.
    apply StronglySorted_app_2; [|done|repeat constructor].
    intros i j [u [-> Hu]]%list_elem_of_fmap ->%list_elem_of_singleton.
    rewrite Forall_forall in Hr. specialize (Hr u Hu). simpl. lia.
  - destruct (UserCreate_validate body) as [|user]; [done|]. intros _.
    by rewrite update_user_ids.
  - intros _. eapply StronglySorted_sublist; [|done].
    apply fmap_sublist, delete_user_sublist.
  - destruct (UserCreate_validate body) as [|user]; [done|].
    unfold create_user. destruct (duplicate_check _ _); [done|].
    simpl. intros Hr'. apply Forall_app. split; [done|].
    repeat constructor; simpl; lia.
  - destruct (UserCreate_validate body) as [|user]; [done|]. intros Hr'.
    apply (Forall_fmap User.id
             (λ i, 1 ≤ i < user_id_counter (update_user user_id user st).1)).
    rewrite update_user_ids. by apply Forall_fmap.
  - intros Hr'. rewrite Forall_forall in Hr' |- *. intros u Hu. apply Hr'.
    eapply elem_of_sublist; [done|]. apply delete_user_sublist.
Qed.

Lemma serve_sorted st reqs :
  StronglySorted Z.lt (User.id <$> fake_users_db st) ∧
  Forall (λ u, 1 ≤ User.id u < user_id_counter st) (fake_users_db st) ∧
  1 ≤ user_id_counter st →
  StronglySorted Z.lt (User.id <$> fake_users_db (serve st reqs).1) ∧
  Forall (λ u, 1 ≤ User.id u < user_id_counter (serve st reqs).1)
         (fake_users_db (serve st reqs).1) ∧
  1 ≤ user_id_counter (serve st reqs).1.
Proof.
  revert st. induction reqs as [|req reqs IH]; intros st Hinv; [done|].
  rewrite serve_cons. simpl. by apply IH, app_sorted.
Qed.

(** X13: in every store the process can reach, the ids run in strictly
    ascending order along the list, so the list shows the records in
    creation order; every id is at least 1 and below the counter, and the
    list holds at most counter - 1 records. *)
Theorem reachable_ids_ascending reqs :
  let st := (serve startup reqs).1 in
  StronglySorted Z.lt (User.id <$> fake_users_db st) ∧
  Forall (λ u, 1 ≤ User.id u < user_id_counter st) (fake_users_db st) ∧
  Z.of_nat (length (fake_users_db st)) ≤ user_id_counter st - 1.
Proof.
  intros st.
  destruct (serve_sorted startup reqs) as (Hs & Hr & Hone).
  { split_and!; [constructor|constructor|done]. }
  fold st in Hs, Hr, Hone. split_and!; [done..|].
  pose proof (sorted_range_length (User.id <$> fake_users_db st) 1
                (user_id_counter st) Hs) as Hlen.
  rewrite length_fmap in Hlen. rewrite Z.max_r in Hlen by lia.
  apply Hlen. by apply Forall_fmap.
Qed.

(** *** Status codes *)

(** X14: for the requests described here (an integer path id, body keys
    that carry a string or are not sent), the status codes each route can
    answer with: 200 for the health check and the list; 200 or 404 for get
    and delete; 201, 400 or 422 for creation; 200, 404 or 422 for update. *)
Theorem status_by_route st req :
  let code := status_code (app st req).2 in
  match req with
  | GET_root | GET_users => code = 200
  | GET_user _ | DELETE_user _ => code = 200 ∨ code = 404
  | POST_users _ => code = 201 ∨ code = 400 ∨ code = 422
  | PUT_user _ _ => code = 200 ∨ code = 404 ∨ code = 422
  end.
Proof.
  intros code. subst code. rewrite app_response. destruct req; try done.
  - unfold get_user. destruct (list_find _ _) as [[??]|]; simpl; auto.
  - destruct (UserCreate_validate body) as [|user]; simpl; [auto|].
    unfold create_user. destruct (duplicate_check _ _) as [exc|] eqn:Hd;
      [|simpl; auto].
    apply duplicate_check_Some in Hd as [-> | ->]; simpl; auto.
  - destruct (UserCreate_validate body) as [|user]; simpl; [auto|].
    unfold update_user. destruct (list_find _ _) as [[??]|]; simpl; auto.
  - unfold delete_user. destruct (list_find _ _) as [[??]|]; simpl; auto.
Qed.

(** X15: for a creation or an update with an integer path id and a body
    whose keys carry a string or are not sent, the answer is 422 exactly
    when the body lacks a username, lacks a password, or has no email that
    [EmailStr] accepts; a full_name that is not sent never is a reason. *)
Theorem unprocessable_iff st req body :
  (req = POST_users body ∨ ∃ user_id, req = PUT_user user_id body) →
  (status_code (app st req).2 = 422 ↔
   body_username body = None ∨ body_email body ≫= EmailStr = None ∨
   body_password body = None).
Proof.
  intros Hreq. rewrite app_response.
  destruct Hreq as [->|[user_id ->]]; unfold UserCreate_validate;
    destruct (body_username body) as [u|], (body_email body ≫= EmailStr)
      as [e|], (body_password body) as [p|]; simpl;
    try (split; [intros _; auto|done]).
  - destruct (handler_status 0 (UserCreate.mk u e p (body_full_name body)) st)
      as [[Hc|Hc] _]; rewrite Hc; (split; [done|by intros [|[|]]]).
  - destruct (handler_status user_id
                (UserCreate.mk u e p (body_full_name body)) st)
      as [_ [Hc|Hc]]; rewrite Hc; (split; [done|by intros [|[|]]]).
Qed.

(** X16: in a store the process can reach, get returns a record exactly
    when that record is in the list under the requested id: it never makes a
    record up, and no stored record is out of its reach. *)
Theorem get_returns_stored reqs user_id u :
  let st := (serve startup reqs).1 in
  get_user user_id st = (st, Return u) ↔
  u ∈ fake_users_db st ∧ User.id u = user_id.
Proof.
  intros st. destruct (reachable_ok reqs) as [Hnd _]. fold st in Hnd.
  unfold get_user. split.
  - destruct (list_find _ _) as [[idx x]|] eqn:Hf; [|done].
    intros [= <-]. apply list_find_Some in Hf as (Hidx & Hid & _).
    split; [by eapply list_elem_of_lookup_2|done].
  - intros [Hin Hid].
    destruct (list_find_elem_of (λ x, User.id x = user_id) _ u Hin Hid)
      as [[idx x] Hf].
    rewrite Hf. apply list_find_Some in Hf as (Hidx & Hx & _).
    apply list_elem_of_lookup in Hin as [j Hj].
    assert (j = idx) as ->.
    { eapply (NoDup_lookup _ j idx user_id); [exact Hnd|..];
        rewrite list_lookup_fmap.
      - by rewrite Hj; simpl; rewrite Hid.
      - by rewrite Hidx; simpl; rewrite Hx. }
    congruence.
Qed.

End App.

(** ** The properties on sample runs *)

(** C1, as stated, fails: after alice and bob have been created, an update
    of bob with the payload of alice is accepted, and the store then holds
    two records with the same username and the same email. *)
Lemma update_breaks_uniqueness :
  let st := (serve email_shape email_shape_reason startup
               [POST_users alice_body; POST_users bob_body;
                PUT_user 2 alice_body]).1 in
  fake_users_db st = [alice 1; alice 2] ∧ ¬ unique_fields (fake_users_db st).
Proof.
  split; [reflexivity|]. vm_compute. intros [Hu _].
  apply NoDup_cons in Hu as [Hnotin _]. apply Hnotin. apply list_elem_of_here.
Qed.

Lemma reachable_unique_fields_witness :
  let reqs := [POST_users alice_body; POST_users bob_body;
               PUT_user 2 (mkBody (Some "robert") (Some "rob@example.com")
                                  (Some "p") None);
               DELETE_user 1; PUT_user 2 alice_body] in
  updates_apart email_shape email_shape_reason startup reqs = true ∧
  unique_fields (fake_users_db (serve email_shape email_shape_reason startup reqs).1).
Proof.
  split; [reflexivity|]. apply (reachable_unique_fields email_shape email_shape_reason).
  reflexivity.
Defined.

(** C2, as stated, fails: with bob stored before alice, a payload with the
    username of alice and the email of bob meets the record of bob first,
    and the email conflict is the one reported. *)
Lemma email_conflict_reported_first :
  let st := (serve email_shape email_shape_reason startup
               [POST_users bob_body; POST_users alice_body]).1 in
  fake_users_db st = [bob 1; alice 2] ∧
  create_user alice_at_bob st = (st, HTTPException 400 detail_email_exists) ∧
  (app email_shape email_shape_reason st
     (POST_users (mkBody (Some "alice") (Some "bob@example.com") (Some "p")
                         None))).2 =
  mkResponse 400 (JObj [("detail", JStr detail_email_exists)]).
Proof. split_and!; reflexivity. Qed.

Lemma create_reports_first_conflict_witness :
  let st := mkStore [alice 1; bob 2] 3 in
  list_find (λ u, User.username u = UserCreate.username alice_at_bob)
            (fake_users_db st) = Some (0%nat, alice 1) ∧
  list_find (λ u, User.email u = UserCreate.email alice_at_bob)
            (fake_users_db st) = Some (1%nat, bob 2) ∧
  create_user alice_at_bob st = (st, HTTPException 400 detail_username_exists).
Proof.
  split_and!; [reflexivity..|].
  apply (create_reports_first_conflict alice_at_bob (mkStore [alice 1; bob 2] 3)
           0%nat 1%nat (alice 1) (bob 2)); reflexivity.
Defined.

Lemma error_leaves_store_witness :
  let st := mkStore [alice 1] 2 in
  is_error (app email_shape email_shape_reason st (POST_users alice_body)).2 ∧
  (app email_shape email_shape_reason st (POST_users alice_body)).1 = st.
Proof.
  split; [by vm_compute|].
  apply (error_leaves_store email_shape email_shape_reason (mkStore [alice 1] 2)
           (POST_users alice_body)).
  by vm_compute.
Defined.

Lemma update_has_no_uniqueness_check_witness :
  let st := mkStore [alice 1; bob 2] 3 in
  UserCreate_validate email_shape alice_body =
    inr (UserCreate.mk "alice" "alice@example.com" "p" (Some "Alice A")) ∧
  bob 2 ∈ fake_users_db st ∧
  (app email_shape email_shape_reason st (PUT_user 2 alice_body)).2 =
    mkResponse 200 (User_dump (alice 2)) ∧
  alice 2 ∈ fake_users_db (app email_shape email_shape_reason st (PUT_user 2 alice_body)).1.
Proof.
  assert (bob 2 ∈ [alice 1; bob 2]) as Hin
    by apply list_elem_of_further, list_elem_of_here.
  split_and!; [reflexivity|exact Hin|..];
    apply (update_has_no_uniqueness_check email_shape email_shape_reason
             (mkStore [alice 1; bob 2] 3) 2 alice_body _ (bob 2)
             eq_refl Hin eq_refl).
Defined.

(** Ids 1, 2, 3 for three creations around a deletion and a refused
    creation: the id of the deleted record is not handed out again. *)
Example created_ids_sample :
  created_ids (serve email_shape email_shape_reason startup
                 [POST_users alice_body; DELETE_user 1; POST_users alice_body;
                  POST_users alice_body; POST_users bob_body]).2 = [1; 2; 3].
Proof. reflexivity. Qed.

(** C6, as stated, fails: a creation body whose username is the empty
    string is accepted, and the record is stored under id 1. *)
Lemma empty_username_accepted :
  app email_shape email_shape_reason startup
      (POST_users (mkBody (Some "") (Some "a@example.com") (Some "p") None)) =
  (mkStore [User.mk 1 "" "a@example.com" None] 2,
   mkResponse 201 (User_dump (User.mk 1 "" "a@example.com" None))).
Proof. reflexivity. Qed.

Lemma missing_username_rejected_witness :
  let body := mkBody None (Some "a@example.com") (Some "p") None in
  let req := PUT_user 1 body in
  (req = POST_users body ∨ ∃ user_id, req = PUT_user user_id body) ∧
  app email_shape email_shape_reason (mkStore [alice 1] 2) req =
  (mkStore [alice 1] 2,
   mkResponse 422
     (JObj [("detail",
             JArr [JObj [("type", JStr "missing");
                         ("loc", JArr [JStr "body"; JStr "username"]);
                         ("msg", JStr "Field required");
                         ("input", JObj [("email", JStr "a@example.com");
                                         ("password", JStr "p")])]])])).
Proof.
  intros body req.
  assert (req = POST_users body ∨ ∃ user_id, req = PUT_user user_id body)
    as Hreq by (right; by exists 1).
  split; [exact Hreq|].
  destruct (missing_username_rejected email_shape email_shape_reason
              (mkStore [alice 1] 2) req body Hreq) as [Hmissing _].
  destruct (Hmissing eq_refl) as [Happ _]. exact Happ.
Defined.

Lemma update_in_place_witness :
  let st := mkStore [alice 1; bob 2] 3 in
  let updated_user := User.mk 2 "alice" "bob@example.com" None in
  update_user 2 alice_at_bob st =
    (mkStore [alice 1; updated_user] 3, Return updated_user) ∧
  ∃ idx old,
    fake_users_db st !! idx = Some old ∧ User.id old = 2 ∧
    [alice 1; updated_user] !! idx = Some updated_user ∧
    ∀ j, j ≠ idx → [alice 1; updated_user] !! j = fake_users_db st !! j.
Proof.
  intros st updated_user. split; [reflexivity|].
  destruct (update_in_place 2 alice_at_bob st
              (mkStore [alice 1; updated_user] 3) updated_user eq_refl)
    as (idx & old & Hold & Hid & Hnew & _ & _ & Hframe & _).
  by exists idx, old.
Defined.



Lemma delete_then_gone_witness :
  let st := (serve email_shape email_shape_reason startup
               [POST_users alice_body; POST_users bob_body]).1 in
  alice 1 ∈ fake_users_db st ∧
  (app email_shape email_shape_reason (app email_shape email_shape_reason st (DELETE_user 1)).1 (GET_user 1)).2 =
    mkResponse 404 (JObj [("detail", JStr detail_not_found)]) ∧
  fake_users_db (app email_shape email_shape_reason st (DELETE_user 1)).1 = [bob 2].
Proof.
  intros st.
  assert (alice 1 ∈ fake_users_db st) as Hin by apply list_elem_of_here.
  destruct (delete_then_gone email_shape email_shape_reason
              [POST_users alice_body; POST_users bob_body] 1 (alice 1)
              Hin eq_refl) as (_ & _ & Hget & Hdb & _).
  split_and!; [exact Hin|exact Hget|]. etrans; [exact Hdb|reflexivity].
Defined.

Lemma update_requires_password_witness :
  let body := mkBody (Some "alice") (Some "alice@example.com") None None in
  body_password body = None ∧
  app email_shape email_shape_reason (mkStore [alice 1] 2) (PUT_user 1 body) =
  (mkStore [alice 1] 2,
   mkResponse 422
     (JObj [("detail",
             JArr [JObj [("type", JStr "missing");
                         ("loc", JArr [JStr "body"; JStr "password"]);
                         ("msg", JStr "Field required");
                         ("input",
                          JObj [("username", JStr "alice");
                                ("email", JStr "alice@example.com")])]])])).
Proof.
  intros body. split; [reflexivity|].
  destruct (update_requires_password email_shape email_shape_reason
              (mkStore [alice 1] 2) 1 body eq_refl) as [Happ _].
  exact Happ.
Defined.

(** ** The further properties on sample stores *)

Lemma username_conflict_alone_witness :
  let st := mkStore [bob 1; alice 2] 3 in
  let user := UserCreate.mk "alice" "alice@other.org" "p" None in
  Exists (λ u, User.username u = UserCreate.username user) (fake_users_db st) ∧
  Forall (λ u, User.email u ≠ UserCreate.email user) (fake_users_db st) ∧
  create_user user st = (st, HTTPException 400 detail_username_exists).
Proof.
  intros st user.
  assert (Exists (λ u, User.username u = UserCreate.username user)
                 (fake_users_db st)) as Hex
    by (apply Exists_cons_tl, Exists_cons_hd; reflexivity).
  assert (Forall (λ u, User.email u ≠ UserCreate.email user)
                 (fake_users_db st)) as Hall by (by repeat constructor).
  split_and!; [exact Hex|exact Hall|].
  exact (username_conflict_alone user st Hex Hall).
Defined.

Lemma email_conflict_alone_witness :
  let st := mkStore [bob 1; alice 2] 3 in
  let user := UserCreate.mk "alicia" "alice@example.com" "p" None in
  Exists (λ u, User.email u = UserCreate.email user) (fake_users_db st) ∧
  Forall (λ u, User.username u ≠ UserCreate.username user) (fake_users_db st) ∧
  create_user user st = (st, HTTPException 400 detail_email_exists).
Proof.
  intros st user.
  assert (Exists (λ u, User.email u = UserCreate.email user)
                 (fake_users_db st)) as Hex
    by (apply Exists_cons_tl, Exists_cons_hd; reflexivity).
  assert (Forall (λ u, User.username u ≠ UserCreate.username user)
                 (fake_users_db st)) as Hall by (by repeat constructor).
  split_and!; [exact Hex|exact Hall|].
  exact (email_conflict_alone user st Hex Hall).
Defined.

Lemma create_twice_refused_witness :
  let user := UserCreate.mk "bob" "bob@example.com" "p" None in
  let st := mkStore [alice 1] 2 in
  let st' := mkStore [alice 1; bob 2] 3 in
  create_user user st = (st', Return (bob 2)) ∧
  create_user user st' = (st', HTTPException 400 detail_username_exists).
Proof.
  intros user st st'. split; [reflexivity|].
  exact (create_twice_refused user st st' (bob 2) eq_refl).
Defined.

Lemma update_then_get_witness :
  let st := mkStore [alice 1; bob 2] 3 in
  let updated_user := User.mk 2 "alice" "bob@example.com" None in
  let st' := mkStore [alice 1; updated_user] 3 in
  update_user 2 alice_at_bob st = (st', Return updated_user) ∧
  get_user 2 st' = (st', Return updated_user).
Proof.
  intros st updated_user st'. split; [reflexivity|].
  exact (update_then_get 2 alice_at_bob st st' updated_user eq_refl).
Defined.

Lemma delete_removes_first_witness :
  let st := mkStore [alice 1; bob 2; alice 3] 4 in
  let st' := mkStore [alice 1; alice 3] 4 in
  delete_user 2 st = (st', Return message_deleted) ∧
  ∃ before x after,
    fake_users_db st = before ++ x :: after ∧ User.id x = 2 ∧
    Forall (λ u, User.id u ≠ 2) before ∧
    fake_users_db st' = before ++ after ∧
    user_id_counter st' = user_id_counter st.
Proof.
  intros st st'. split; [reflexivity|].
  exact (delete_removes_first 2 st st' message_deleted eq_refl).
Defined.

Lemma delete_twice_not_found_witness :
  let st := (serve email_shape email_shape_reason startup
               [POST_users alice_body; POST_users bob_body]).1 in
  (delete_user 1 st).2 = Return message_deleted ∧
  delete_user 1 (delete_user 1 st).1 =
  ((delete_user 1 st).1, HTTPException 404 detail_not_found).
Proof.
  intros st. split; [reflexivity|].
  exact (delete_twice_not_found email_shape email_shape_reason
           [POST_users alice_body; POST_users bob_body] 1 message_deleted
           eq_refl).
Defined.

Lemma get_of_other_ids_unchanged_witness :
  let st := mkStore [alice 1; bob 2] 3 in
  (2 ≠ 1) ∧
  (get_user 1 (app email_shape email_shape_reason st (DELETE_user 2)).1).2 = Return (alice 1).
Proof.
  intros st. assert (2 ≠ 1) as Hne by done. split; [exact Hne|].
  etrans; [exact (get_of_other_ids_unchanged email_shape email_shape_reason st (DELETE_user 2) 1
                    Hne)|reflexivity].
Defined.

Lemma reads_change_nothing_witness :
  let st := mkStore [alice 1; bob 2] 3 in
  let reqs := [GET_users; GET_user 2; GET_root; GET_user 7] in
  forallb is_read reqs = true ∧
  (serve email_shape email_shape_reason st reqs).1 = st ∧
  (serve email_shape email_shape_reason st reqs).2 = map (λ req, (app email_shape email_shape_reason st req).2) reqs.
Proof.
  intros st reqs. split; [reflexivity|].
  exact (reads_change_nothing email_shape email_shape_reason st reqs eq_refl).
Defined.

Lemma unprocessable_iff_witness :
  let body := mkBody (Some "carol") (Some "not an address") None None in
  let req := POST_users body in
  (req = POST_users body ∨ ∃ user_id, req = PUT_user user_id body) ∧
  (status_code (app email_shape email_shape_reason startup req).2 = 422 ↔
   body_username body = None ∨ body_email body ≫= email_shape = None ∨
   body_password body = None).
Proof.
  intros body req.
  assert (req = POST_users body ∨ ∃ user_id, req = PUT_user user_id body)
    as Hreq by (by left).
  split; [exact Hreq|].
  exact (unprocessable_iff email_shape email_shape_reason startup req body Hreq).
Defined.
